(** * The SQLite adapter of the nosql key-value abstraction

    A shallow embedding of [sqlite/sqlite.go]: the adapter's methods
    ([CmpAndSwap], [cmpAndSwap], [CreateTable], [Del], [DeleteTable], [Get],
    [List], [Set], [Update]) over a model of the [database/sql] handle they
    drive, and the properties of the key-value contract they implement. *)

From Stdlib Require Import ZArith String List Strings.Byte.
From stdpp Require Import base option countable gmap list strings.

Local Open Scope string_scope.

(** ** Byte slices

    A Go [[]byte] is a list of bytes.  [bytes.Equal] does not tell a nil
    slice from an empty one, and neither does this model: both are [[]]. *)

Abbreviation bytes := (list Byte.byte).

#[global] Instance byte_eq_dec : EqDecision Byte.byte := Byte.byte_eq_dec.

#[global] Program Instance byte_countable : Countable Byte.byte :=
  inj_countable Byte.to_N Byte.of_N _.
Next Obligation. intros b. apply Byte.of_to_N. Qed.

(** [bytes.Equal]. *)
Definition bytes_Equal (a b : bytes) : bool := bool_decide (a = b).

(** The [%s] verb of [fmt] applied to a byte slice. *)
Definition fmt_s (b : bytes) : string := string_of_list_byte b.

(** A byte slice literal, [[]byte("...")]. *)
Definition B (s : string) : bytes := list_byte_of_string s.

(** ** Go errors

    A Go [error] value is [option error], [None] being [nil].  The adapter
    builds its errors from four sentinels, the messages of the SQLite driver
    and the wrappers of [github.com/pkg/errors]. *)

Inductive error : Type :=
  | ErrNotFound                              (* database.ErrNotFound *)
  | ErrOpNotSupported                        (* database.ErrOpNotSupported *)
  | ErrNoRows                                (* sql.ErrNoRows *)
  | ErrTxDone                                (* sql.ErrTxDone *)
  | DriverError (msg : string)               (* an error of the SQLite driver *)
  | Wrapped (cause : error) (msg : string)   (* errors.Wrap, errors.Wrapf *)
  | Stacked (cause : error).                 (* errors.WithStack *)

#[global] Instance error_eq_dec : EqDecision error.
Proof. solve_decision. Defined.

Module errors.

(** [errors.Wrap] and [errors.Wrapf], the message already formatted: a nil
    error stays nil. *)
Definition Wrapf (err : option error) (msg : string) : option error :=
  match err with
  | None => None
  | Some e => Some (Wrapped e msg)
  end.

(** [errors.WithStack]: a nil error stays nil. *)
Definition WithStack (err : option error) : option error :=
  match err with
  | None => None
  | Some e => Some (Stacked e)
  end.

(** [errors.Is] against a sentinel: the chain of causes is searched. *)
Fixpoint Is (err target : error) : bool :=
  bool_decide (err = target) ||
  match err with
  | Wrapped c _ => Is c target
  | Stacked c => Is c target
  | _ => false
  end.

(** [errors.Cause]: the innermost error of a chain of wrappers. *)
Fixpoint Cause (err : error) : error :=
  match err with
  | Wrapped c _ => Cause c
  | Stacked c => Cause c
  | e => e
  end.

End errors.

(** The [Error()] method: the text of an error.  The adapter only reads the
    text of a driver error; the texts of the four sentinels are those of
    their packages. *)
Fixpoint Error (err : error) : string :=
  match err with
  | ErrNotFound => "not found"
  | ErrOpNotSupported => "operation not supported"
  | ErrNoRows => "sql: no rows in result set"
  | ErrTxDone => "sql: transaction has already been committed or rolled back"
  | DriverError msg => msg
  | Wrapped c msg => msg +:+ ": " +:+ Error c
  | Stacked c => Error c
  end.

(** [strings.HasPrefix s prefix]. *)
Definition HasPrefix (s pre : string) : bool := String.prefix pre s.

(** ** Package [database]: the operation model *)

Module database.

(** [TxCmd] is an integer type in Go, so a transaction can carry a command
    outside the seven named ones. *)
Definition TxCmd : Type := Z.

(** Modelled from the spec: the declaration of the command constants is
    not part of the adapter's file; section 3 lists them in this order. *)
Definition CreateTable : TxCmd := 0%Z.
Definition DeleteTable : TxCmd := 1%Z.
Definition Get : TxCmd := 2%Z.
Definition Set_ : TxCmd := 3%Z.
Definition Delete : TxCmd := 4%Z.
Definition CmpAndSwap : TxCmd := 5%Z.
Definition CmpOrRollback : TxCmd := 6%Z.

(** One step of a transaction.  [Result] and [Swapped] are written by
    [Update] as it runs. *)
Record Operation : Type := mkOperation {
  Cmd : TxCmd;
  Bucket : bytes;
  Key : bytes;
  Value : bytes;
  CmpValue : bytes;
  Result : bytes;
  Swapped : bool
}.

Record Tx : Type := mkTx { Operations : list Operation }.

Record Entry : Type := mkEntry {
  EntryBucket : bytes;
  EntryKey : bytes;
  EntryValue : bytes
}.

(** Modelled from the spec: the two predicates of section 6 live in the
    [database] package, which the adapter imports; "is this a not-found
    error" holds of an error whose cause is [ErrNotFound]. *)
Definition IsErrNotFound (err : option error) : bool :=
  match err with
  | None => false
  | Some e => bool_decide (errors.Cause e = ErrNotFound)
  end.

(** Modelled from the spec: "is this an unsupported-operation error". *)
Definition IsErrOpNotSupported (err : option error) : bool :=
  match err with
  | None => false
  | Some e => bool_decide (errors.Cause e = ErrOpNotSupported)
  end.

Definition set_Result (q : Operation) (r : bytes) : Operation :=
  mkOperation (Cmd q) (Bucket q) (Key q) (Value q) (CmpValue q) r (Swapped q).

Definition set_Swapped (q : Operation) (b : bool) : Operation :=
  mkOperation (Cmd q) (Bucket q) (Key q) (Value q) (CmpValue q) (Result q) b.

End database.

(** ** Package [database/sql] over SQLite: the engine the adapter drives

    The adapter only ever sends six statements, so a statement is a term
    rather than a string; the query builders of the adapter return these
    terms.  A database is a finite map from table names to tables, a table a
    finite map from [nkey] to [nvalue] (the schema's primary key makes it
    one).  A statement fails exactly when SQLite says so: the table it names
    does not exist.  [Begin], [Commit] and [Rollback] fail when the handle
    is told to ([Faults]), which stands for a lost connection or a full
    disk. *)

Module sql.

Inductive Stmt : Type :=
  | CreateTableIfNotExists (table : bytes)
  | DropTable (table : bytes)
  | SelectValue (table : bytes)          (* SELECT nvalue ... WHERE nkey = ? *)
  | DeleteRow (table : bytes)            (* DELETE ... WHERE nkey = ? *)
  | Upsert (table : bytes)               (* INSERT ... ON CONFLICT DO UPDATE *)
  | SelectAll (table : bytes).           (* SELECT * FROM ... *)

Abbreviation Table := (gmap bytes bytes).
Abbreviation Schema := (gmap bytes (gmap bytes bytes)).

Definition no_such_table (table : bytes) : error :=
  DriverError ("no such table: " +:+ fmt_s table).

Definition bad_args : error :=
  DriverError "sql: wrong number of arguments".

(** One statement against a schema: the schema it leaves and the rows it
    yields, each row a list of columns. *)
Definition run (q : Stmt) (args : list bytes) (s : Schema)
  : error + (Schema * list (list bytes)) :=
  match q, args with
  | CreateTableIfNotExists t, [] =>
      match s !! t with
      | Some _ => inr (s, [])
      | None => inr (<[t := ∅]> s, [])
      end
  | DropTable t, [] =>
      match s !! t with
      | Some _ => inr (delete t s, [])
      | None => inl (no_such_table t)
      end
  | SelectValue t, [k] =>
      match s !! t with
      | Some rows =>
          match rows !! k with
          | Some v => inr (s, [[v]])
          | None => inr (s, [])
          end
      | None => inl (no_such_table t)
      end
  | DeleteRow t, [k] =>
      match s !! t with
      | Some rows => inr (<[t := delete k rows]> s, [])
      | None => inl (no_such_table t)
      end
  | Upsert t, [k; v; v'] =>
      match s !! t with
      | Some rows =>
          match rows !! k with
          | Some _ => inr (<[t := <[k := v']> rows]> s, [])
          | None => inr (<[t := <[k := v]> rows]> s, [])
          end
      | None => inl (no_such_table t)
      end
  | SelectAll t, [] =>
      match s !! t with
      | Some rows => inr (s, (λ kv, [kv.1; kv.2]) <$> map_to_list rows)
      | None => inl (no_such_table t)
      end
  | _, _ => inl bad_args
  end.

(** What the handle is told to fail at. *)
Record Faults : Type := mkFaults {
  begin_fault : option string;
  commit_fault : option string;
  rollback_fault : option string
}.

Definition no_faults : Faults := mkFaults None None None.

(** [*sql.DB]: the committed tables, the number of transactions begun and
    finished by neither [Commit] nor [Rollback], and the faults. *)
Record DB : Type := mkDB {
  tables : Schema;
  open_txs : nat;
  faults : Faults
}.

(** [*sql.Tx]: the tables as the transaction sees them, and whether it is
    finished. *)
Record Tx : Type := mkSqlTx {
  view : Schema;
  done : bool
}.

Definition with_tables (db : DB) (s : Schema) : DB :=
  mkDB s (open_txs db) (faults db).

(** [db.Exec]: one statement in its own transaction. *)
Definition Exec (db : DB) (q : Stmt) (args : list bytes) : DB * option error :=
  match run q args (tables db) with
  | inl e => (db, Some e)
  | inr (s, _) => (with_tables db s, None)
  end.

(** [db.Query]: the rows, or the error of preparing the statement. *)
Definition Query (db : DB) (q : Stmt) (args : list bytes)
  : error + list (list bytes) :=
  match run q args (tables db) with
  | inl e => inl e
  | inr (_, rows) => inr rows
  end.

(** [Row.Scan] of a one-column result into one destination: the first row,
    [ErrNoRows] when there is none. *)
Definition Scan1 (r : error + list (list bytes)) : error + bytes :=
  match r with
  | inl e => inl e
  | inr [] => inl ErrNoRows
  | inr ([v] :: _) => inr v
  | inr (_ :: _) => inl (DriverError "sql: expected 1 destination argument in Scan")
  end.

(** [db.QueryRow(...).Scan(&dst)]. *)
Definition QueryRow (db : DB) (q : Stmt) (args : list bytes) : error + bytes :=
  Scan1 (Query db q args).

(** [db.Begin]. *)
Definition Begin (db : DB) : DB * (error + Tx) :=
  match begin_fault (faults db) with
  | Some msg => (db, inl (DriverError msg))
  | None => (mkDB (tables db) (S (open_txs db)) (faults db),
             inr (mkSqlTx (tables db) false))
  end.

(** [tx.Exec]. *)
Definition TxExec (tx : Tx) (q : Stmt) (args : list bytes) : Tx * option error :=
  if done tx then (tx, Some ErrTxDone)
  else match run q args (view tx) with
       | inl e => (tx, Some e)
       | inr (s, _) => (mkSqlTx s false, None)
       end.

(** [tx.QueryRow(...).Scan(&dst)]. *)
Definition TxQueryRow (tx : Tx) (q : Stmt) (args : list bytes) : error + bytes :=
  if done tx then inl ErrTxDone
  else match run q args (view tx) with
       | inl e => inl e
       | inr (_, rows) => Scan1 (inr rows)
       end.

(** [tx.Commit]: the transaction is finished whether or not the engine
    accepts the commit; only an accepted one publishes the view. *)
Definition Commit (tx : Tx) (db : DB) : Tx * DB * option error :=
  if done tx then (tx, db, Some ErrTxDone)
  else match commit_fault (faults db) with
       | Some msg =>
           (mkSqlTx (view tx) true,
            mkDB (tables db) (pred (open_txs db)) (faults db),
            Some (DriverError msg))
       | None =>
           (mkSqlTx (view tx) true,
            mkDB (view tx) (pred (open_txs db)) (faults db),
            None)
       end.

(** [tx.Rollback]: the view is dropped. *)
Definition Rollback (tx : Tx) (db : DB) : Tx * DB * option error :=
  if done tx then (tx, db, Some ErrTxDone)
  else (mkSqlTx (view tx) true,
        mkDB (tables db) (pred (open_txs db)) (faults db),
        match rollback_fault (faults db) with
        | Some msg => Some (DriverError msg)
        | None => None
        end).

End sql.

(** ** Package [sqlite]: the adapter

    A method of [*DB] takes the handle's state and returns the state it
    leaves next to its Go results.  [Update] writes [Result] and [Swapped]
    into the operations it is given, so it also returns the transaction as
    the caller finds it afterwards. *)

Module sqlite.

Import database.

Definition createTableQry (bucket : bytes) : sql.Stmt :=
  sql.CreateTableIfNotExists bucket.

Definition deleteTableQry (bucket : bytes) : sql.Stmt := sql.DropTable bucket.

Definition getQry (bucket : bytes) : sql.Stmt := sql.SelectValue bucket.

Definition delQry (bucket : bytes) : sql.Stmt := sql.DeleteRow bucket.

Definition insertUpdateQry (bucket : bytes) : sql.Stmt := sql.Upsert bucket.

Definition getQryForUpdate (bucket : bytes) : sql.Stmt := sql.SelectValue bucket.

(** The [bucket/key] of the messages. *)
Definition slash (bucket key : bytes) : string :=
  fmt_s bucket +:+ "/" +:+ fmt_s key.

Definition cmpAndSwap (sqlTx : sql.Tx) (bucket key oldValue newValue : bytes)
  : sql.Tx * (bytes * bool * option error) :=
  let '(current, err) :=
    match sql.TxQueryRow sqlTx (getQryForUpdate bucket) [key] with
    | inl e => ([], Some e)
    | inr v => (v, None)
    end in
  if match err with
     | Some e => negb (errors.Is e ErrNoRows)
     | None => false
     end
  then (sqlTx, ([], false, err))
  else if negb (bytes_Equal current oldValue)
  then (sqlTx, (current, false, None))
  else match sql.TxExec sqlTx (insertUpdateQry bucket) [key; newValue; newValue] with
       | (sqlTx', Some e) =>
           (sqlTx', ([], false, Some (Wrapped e ("failed to set " +:+ slash bucket key))))
       | (sqlTx', None) => (sqlTx', (newValue, true, None))
       end.

Definition CmpAndSwap (db : sql.DB) (bucket key oldValue newValue : bytes)
  : sql.DB * (bytes * bool * option error) :=
  match sql.Begin db with
  | (db, inl err) => (db, ([], false, errors.WithStack (Some err)))
  | (db, inr sqlTx) =>
      let '(sqlTx, (val, swapped, err)) :=
        cmpAndSwap sqlTx bucket key oldValue newValue in
      match err with
      | Some err0 =>
          match sql.Rollback sqlTx db with
          | (_, db, Some err) =>
              (db, ([], false,
                    Some (Wrapped err
                            ("failed to execute CmpAndSwap transaction on "
                             +:+ slash bucket key
                             +:+ " and failed to rollback transaction"))))
          | (_, db, None) => (db, ([], false, Some err0))
          end
      | None =>
          if swapped then
            match sql.Commit sqlTx db with
            | (_, db, Some err) =>
                (db, ([], false,
                      Some (Wrapped err "failed to commit MySQL transaction")))
            | (_, db, None) => (db, (val, swapped, None))
            end
          else
            match sql.Rollback sqlTx db with
            | (_, db, Some err) =>
                (db, ([], false,
                      Some (Wrapped err
                              ("failed to rollback read-only CmpAndSwap transaction on "
                               +:+ slash bucket key))))
            | (_, db, None) => (db, (val, swapped, None))
            end
      end
  end.

(** The [println] of the error is not part of the result. *)
Definition CreateTable (db : sql.DB) (bucket : bytes) : sql.DB * option error :=
  match sql.Exec db (createTableQry bucket) [] with
  | (db, Some err) =>
      (db, Some (Wrapped err ("failed to create table " +:+ fmt_s bucket)))
  | (db, None) => (db, None)
  end.

Definition Del (db : sql.DB) (bucket key : bytes) : sql.DB * option error :=
  let '(db, err) := sql.Exec db (delQry bucket) [key] in
  (db, errors.Wrapf err ("failed to delete " +:+ slash bucket key)).

Definition DeleteTable (db : sql.DB) (bucket : bytes) : sql.DB * option error :=
  match sql.Exec db (deleteTableQry bucket) [] with
  | (db, Some err) =>
      let estr := Error err in
      if HasPrefix estr "no such table"
      then (db, Some (Wrapped ErrNotFound estr))
      else (db, Some (Wrapped err ("failed to delete table " +:+ fmt_s bucket)))
  | (db, None) => (db, None)
  end.

(** The Go code scans into a [string] and converts it back: the same bytes. *)
Definition Get (db : sql.DB) (bucket key : bytes) : bytes * option error :=
  match sql.QueryRow db (getQry bucket) [key] with
  | inl err =>
      if bool_decide (err = ErrNoRows)
      then ([], Some (Wrapped ErrNotFound (slash bucket key +:+ " not found")))
      else ([], Some (Wrapped err ("failed to get " +:+ slash bucket key)))
  | inr val => (val, None)
  end.

(** One row of [rows.Scan(&key, &value)]. *)
Definition scan_entry (bucket : bytes) (row : list bytes) : error + Entry :=
  match row with
  | [key; value] => inr (mkEntry bucket key value)
  | _ => inl (DriverError "sql: expected 2 destination arguments in Scan")
  end.

Fixpoint scan_rows (bucket : bytes) (rows : list (list bytes)) (entries : list Entry)
  : list Entry * option error :=
  match rows with
  | [] => (entries, None)
  | row :: rows' =>
      match scan_entry bucket row with
      | inl err => ([], Some (Wrapped err "error getting key and value from row"))
      | inr e => scan_rows bucket rows' (entries ++ [e])
      end
  end.

(** [rows.Err()] after the loop is nil on this engine, which yields every
    row of the table it was asked for. *)
Definition List (db : sql.DB) (bucket : bytes) : list Entry * option error :=
  match sql.Query db (sql.SelectAll bucket) [] with
  | inl err =>
      let estr := Error err in
      if HasPrefix estr "no such table"
      then ([], Some (Wrapped ErrNotFound estr))
      else ([], Some (Wrapped err ("error querying table " +:+ fmt_s bucket)))
  | inr rows => scan_rows bucket rows []
  end.

Definition Set_ (db : sql.DB) (bucket key value : bytes) : sql.DB * option error :=
  match sql.Exec db (insertUpdateQry bucket) [key; value; value] with
  | (db, Some err) => (db, Some (Wrapped err ("failed to set " +:+ slash bucket key)))
  | (db, None) => (db, None)
  end.

(** The [rollback] closure of [Update]. *)
Definition rollback (sqlTx : sql.Tx) (db : sql.DB) (err : error) : sql.DB * error :=
  match sql.Rollback sqlTx db with
  | (_, db, Some rollbackErr) =>
      (db, Wrapped err "UPDATE failed, unable to rollback transaction")
  | (_, db, None) => (db, Wrapped err "UPDATE failed")
  end.

(** How one turn of the loop of [Update] ends: it falls out of the
    [switch] with the transaction and the operation as it has written it,
    or [Update] returns. *)
Inductive turn : Type :=
  | Next (sqlTx : sql.Tx) (q : Operation)
  | Return (db : sql.DB) (q : Operation) (err : error).

Definition fail (sqlTx : sql.Tx) (db : sql.DB) (q : Operation) (err : error) : turn :=
  let '(db, e) := rollback sqlTx db err in Return db q e.

(** The body of the loop: the [switch] on [q.Cmd]. *)
Definition Update_op (sqlTx : sql.Tx) (db : sql.DB) (q : Operation) : turn :=
  if decide (Cmd q = database.CreateTable) then
    match sql.TxExec sqlTx (createTableQry (Bucket q)) [] with
    | (sqlTx, Some err) =>
        fail sqlTx db q (Wrapped err ("failed to create table " +:+ fmt_s (Bucket q)))
    | (sqlTx, None) => Next sqlTx q
    end
  else if decide (Cmd q = database.DeleteTable) then
    match sql.TxExec sqlTx (deleteTableQry (Bucket q)) [] with
    | (sqlTx, Some err) =>
        let estr := Error err in
        if HasPrefix (Error err) "no such table"
        then Return db q (Wrapped ErrNotFound estr)
        else Return db q (Wrapped err ("failed to delete table " +:+ fmt_s (Bucket q)))
    | (sqlTx, None) => Next sqlTx q
    end
  else if decide (Cmd q = database.Get) then
    match sql.TxQueryRow sqlTx (getQry (Bucket q)) [Key q] with
    | inl err =>
        if bool_decide (err = ErrNoRows)
        then fail sqlTx db q
               (Wrapped ErrNotFound (slash (Bucket q) (Key q) +:+ " not found"))
        else fail sqlTx db q
               (Wrapped err ("failed to get " +:+ slash (Bucket q) (Key q)))
    | inr val => Next sqlTx (set_Result q val)
    end
  else if decide (Cmd q = database.Set_) then
    match sql.TxExec sqlTx (insertUpdateQry (Bucket q)) [Key q; Value q; Value q] with
    | (sqlTx, Some err) =>
        fail sqlTx db q (Wrapped err ("failed to set " +:+ slash (Bucket q) (Key q)))
    | (sqlTx, None) => Next sqlTx q
    end
  else if decide (Cmd q = database.Delete) then
    match sql.TxExec sqlTx (delQry (Bucket q)) [Key q] with
    | (sqlTx, Some err) =>
        fail sqlTx db q (Wrapped err ("failed to delete " +:+ slash (Bucket q) (Key q)))
    | (sqlTx, None) => Next sqlTx q
    end
  else if decide (Cmd q = database.CmpAndSwap) then
    let '(sqlTx, (result, swapped, err)) :=
      cmpAndSwap sqlTx (Bucket q) (Key q) (CmpValue q) (Value q) in
    let q := set_Swapped (set_Result q result) swapped in
    match err with
    | Some err =>
        fail sqlTx db q
          (Wrapped err ("failed to load-or-store " +:+ slash (Bucket q) (Key q)))
    | None => Next sqlTx q
    end
  else if decide (Cmd q = database.CmpOrRollback) then
    Return db q ErrOpNotSupported
  else
    Return db q ErrOpNotSupported.

(** The loop over [tx.Operations]: the operations as they are left, and
    either the return of [Update] from inside the loop or the transaction
    at the end of it. *)
Fixpoint Update_loop (sqlTx : sql.Tx) (db : sql.DB) (ops : list Operation)
  : list Operation * (sql.DB * error + sql.Tx) :=
  match ops with
  | [] => ([], inr sqlTx)
  | q :: rest =>
      match Update_op sqlTx db q with
      | Return db' q' err => (q' :: rest, inl (db', err))
      | Next sqlTx' q' =>
          let '(rest', r) := Update_loop sqlTx' db rest in (q' :: rest', r)
      end
  end.

Definition Update (db : sql.DB) (tx : Tx) : sql.DB * Tx * option error :=
  match sql.Begin db with
  | (db, inl err) => (db, tx, errors.WithStack (Some err))
  | (db, inr sqlTx) =>
      match Update_loop sqlTx db (Operations tx) with
      | (ops, inl (db, err)) => (db, mkTx ops, Some err)
      | (ops, inr sqlTx) =>
          let '(sqlTx, db, err) := sql.Commit sqlTx db in
          match errors.WithStack err with
          | Some err =>
              let '(db, e) := rollback sqlTx db err in (db, mkTx ops, Some e)
          | None => (db, mkTx ops, None)
          end
      end
  end.

End sqlite.

(** * Vocabulary of the properties *)

Import database.

Local Open Scope list_scope.

(** The commands that reach the last two branches of the [switch]:
    [CmpOrRollback] and every integer that names no command. *)
Definition unsupported (cmd : TxCmd) : Prop :=
  cmd ≠ database.CreateTable ∧ cmd ≠ database.DeleteTable ∧
  cmd ≠ database.Get ∧ cmd ≠ database.Set_ ∧
  cmd ≠ database.Delete ∧ cmd ≠ database.CmpAndSwap.

(** ** A store to run the methods on

    The scenario of the contract: a bucket [users] in which [alice] has the
    value [1], on an engine that executes every call; [db_users_lossy] is
    the same store on an engine that cannot roll back. *)

Definition users : bytes := B "users".
Definition ghost : bytes := B "ghost".
Definition alice : bytes := B "alice".
Definition bob : bytes := B "bob".

Definition db_users : sql.DB :=
  sql.mkDB {[ users := {[ alice := B "1" ]} ]} 0 sql.no_faults.

Definition db_users_lossy : sql.DB :=
  sql.mkDB {[ users := {[ alice := B "1" ]} ]} 0
    (sql.mkFaults None None (Some "disk I/O error")).

(** An operation as a caller builds it: no result yet. *)
Definition op (cmd : TxCmd) (bucket key value cmpValue : bytes) : Operation :=
  mkOperation cmd bucket key value cmpValue [] false.

(** ** Words for the properties of Update *)

(** What the caller puts into an operation, as opposed to what [Update]
    writes into it. *)
Definition inputs (q : Operation) : TxCmd * bytes * bytes * bytes * bytes :=
  (Cmd q, Bucket q, Key q, Value q, CmpValue q).

(** The commands whose every failing branch in [Update] goes through the
    [rollback] closure. *)
Definition rolls_back (cmd : TxCmd) : Prop :=
  cmd = database.CreateTable ∨ cmd = database.Get ∨ cmd = database.Set_ ∨
  cmd = database.Delete ∨ cmd = database.CmpAndSwap.

(** An operation run on its own, through the method of the adapter that
    bears the command's name. *)
Definition run_method (db : sql.DB) (q : Operation) : sql.DB * option error :=
  if decide (Cmd q = database.CreateTable) then sqlite.CreateTable db (Bucket q)
  else if decide (Cmd q = database.DeleteTable) then sqlite.DeleteTable db (Bucket q)
  else if decide (Cmd q = database.Get) then
    (db, (sqlite.Get db (Bucket q) (Key q)).2)
  else if decide (Cmd q = database.Set_) then
    sqlite.Set_ db (Bucket q) (Key q) (Value q)
  else if decide (Cmd q = database.Delete) then sqlite.Del db (Bucket q) (Key q)
  else if decide (Cmd q = database.CmpAndSwap) then
    let r := sqlite.CmpAndSwap db (Bucket q) (Key q) (CmpValue q) (Value q) in
    (r.1, r.2.2)
  else (db, Some ErrOpNotSupported).

(** Operations run one after the other, each in its own call, up to the
    first that fails. *)
Fixpoint run_methods (db : sql.DB) (ops : list Operation) : sql.DB * option error :=
  match ops with
  | [] => (db, None)
  | q :: rest =>
      match run_method db q with
      | (db', None) => run_methods db' rest
      | (db', Some e) => (db', Some e)
      end
  end.

(** * Properties *)

(** ** The engine's "no such table" error *)

Lemma no_such_table_prefix (table : bytes) :
  HasPrefix (Error (sql.no_such_table table)) "no such table" = true.
Proof. reflexivity. Qed.

Lemma no_such_table_not_ErrNoRows (table : bytes) :
  errors.Is (sql.no_such_table table) ErrNoRows = false.
Proof. reflexivity. Qed.

Lemma db_eta (db : sql.DB) :
  sql.mkDB (sql.tables db) (sql.open_txs db) (sql.faults db) = db.
Proof. by destruct db. Qed.

(** ** Reading a row through an open transaction *)

Section OpenTx.

Variables (sqlTx : sql.Tx) (bucket key : bytes) (rows : gmap bytes bytes).
Hypothesis Hopen : sql.done sqlTx = false.
Hypothesis Hrows : sql.view sqlTx !! bucket = Some rows.

Lemma TxQueryRow_hit (v : bytes) :
  rows !! key = Some v →
  sql.TxQueryRow sqlTx (sql.SelectValue bucket) [key] = inr v.
Proof.
  intros Hv. unfold sql.TxQueryRow. rewrite Hopen. simpl.
  by rewrite Hrows, Hv.
Qed.

Lemma TxQueryRow_miss :
  rows !! key = None →
  sql.TxQueryRow sqlTx (sql.SelectValue bucket) [key] = inl ErrNoRows.
Proof.
  intros Hv. unfold sql.TxQueryRow. rewrite Hopen. simpl.
  by rewrite Hrows, Hv.
Qed.

Lemma TxExec_upsert (v : bytes) :
  sql.TxExec sqlTx (sql.Upsert bucket) [key; v; v]
  = (sql.mkSqlTx (<[bucket := <[key := v]> rows]> (sql.view sqlTx)) false, None).
Proof.
  unfold sql.TxExec. rewrite Hopen. simpl. rewrite Hrows.
  by destruct (rows !! key).
Qed.

(** [cmpAndSwap] when the stored value, an absent row read as empty, is
    not the expected one: nothing is written. *)
Lemma cmpAndSwap_mismatch (oldValue newValue : bytes) :
  default [] (rows !! key) ≠ oldValue →
  sqlite.cmpAndSwap sqlTx bucket key oldValue newValue
  = (sqlTx, (default [] (rows !! key), false, None)).
Proof.
  intros Hne. unfold sqlite.cmpAndSwap, sqlite.getQryForUpdate.
  destruct (rows !! key) as [v|] eqn:Hv; simpl in Hne |- *.
  - rewrite (TxQueryRow_hit v Hv). simpl.
    unfold bytes_Equal. by rewrite bool_decide_eq_false_2.
  - rewrite (TxQueryRow_miss Hv). simpl.
    unfold bytes_Equal. by rewrite bool_decide_eq_false_2.
Qed.

(** [cmpAndSwap] when it is the expected one: the new value is upserted. *)
Lemma cmpAndSwap_match (newValue : bytes) :
  sqlite.cmpAndSwap sqlTx bucket key (default [] (rows !! key)) newValue
  = (sql.mkSqlTx (<[bucket := <[key := newValue]> rows]> (sql.view sqlTx)) false,
     (newValue, true, None)).
Proof.
  unfold sqlite.cmpAndSwap, sqlite.getQryForUpdate, sqlite.insertUpdateQry.
  destruct (rows !! key) as [v|] eqn:Hv; simpl.
  - rewrite (TxQueryRow_hit v Hv). simpl.
    unfold bytes_Equal. rewrite bool_decide_eq_true_2 by done. simpl.
    by rewrite TxExec_upsert.
  - rewrite (TxQueryRow_miss Hv). simpl.
    by rewrite TxExec_upsert.
Qed.

End OpenTx.

(** ** The scenario's store *)

Lemma db_users_table : sql.tables db_users !! users = Some {[ alice := B "1" ]}.
Proof. reflexivity. Defined.

Lemma db_users_alice : ({[ alice := B "1" ]} : gmap bytes bytes) !! alice = Some (B "1").
Proof. reflexivity. Defined.

Lemma db_users_bob : ({[ alice := B "1" ]} : gmap bytes bytes) !! bob = None.
Proof. reflexivity. Defined.


(** ** Set, Get, DeleteTable, List *)








(** ** CmpAndSwap *)

(** C2: when the value stored for the key, an absent row read as the empty
    value, differs from the expected old value, [CmpAndSwap] returns that
    stored value, [swapped = false] and a nil error, and leaves the store as
    it found it; this on an engine that begins and rolls back the read-only
    transaction. *)
Theorem CmpAndSwap_mismatch
    (db : sql.DB) (bucket key oldValue newValue : bytes) (rows : gmap bytes bytes) :
  sql.begin_fault (sql.faults db) = None →
  sql.rollback_fault (sql.faults db) = None →
  sql.tables db !! bucket = Some rows →
  default [] (rows !! key) ≠ oldValue →
  sqlite.CmpAndSwap db bucket key oldValue newValue
  = (db, (default [] (rows !! key), false, None)) ∧
  sql.tables (sqlite.CmpAndSwap db bucket key oldValue newValue).1 !! bucket
  = Some rows.
Proof.
  intros Hbegin Hroll Hrows Hne.
  assert (Heq : sqlite.CmpAndSwap db bucket key oldValue newValue
                = (db, (default [] (rows !! key), false, None))).
  { unfold sqlite.CmpAndSwap, sql.Begin. rewrite Hbegin.
    rewrite (cmpAndSwap_mismatch (sql.mkSqlTx (sql.tables db) false)
               bucket key rows eq_refl Hrows _ _ Hne).
    unfold sql.Rollback. simpl. rewrite Hroll. by rewrite db_eta. }
  by rewrite Heq.
Qed.

Lemma CmpAndSwap_mismatch_witness :
  sqlite.CmpAndSwap db_users users alice (B "7") (B "3")
  = (db_users, (B "1", false, None)) ∧
  sql.tables (sqlite.CmpAndSwap db_users users alice (B "7") (B "3")).1 !! users
  = Some {[ alice := B "1" ]}.
Proof.
  pose proof (CmpAndSwap_mismatch db_users users alice (B "7") (B "3")
                {[ alice := B "1" ]}) as H.
  rewrite db_users_alice in H. apply H.
  - reflexivity.
  - reflexivity.
  - exact db_users_table.
  - vm_compute. discriminate.
Defined.



(** C10: when the bucket exists and holds no row for the key, [cmpAndSwap]
    reads the current value as empty.  With an empty expected value
    [CmpAndSwap] inserts the new value and returns [(newValue, true, nil)];
    with a non-empty one it returns [(nil, false, nil)] and leaves the store
    as it found it; this on an engine that begins, commits and rolls back. *)
Theorem CmpAndSwap_absent_key
    (db : sql.DB) (bucket key oldValue newValue : bytes) (rows : gmap bytes bytes) :
  sql.faults db = sql.no_faults →
  sql.tables db !! bucket = Some rows →
  rows !! key = None →
  sqlite.CmpAndSwap db bucket key oldValue newValue
  = if bool_decide (oldValue = [])
    then (sql.with_tables db (<[bucket := <[key := newValue]> rows]> (sql.tables db)),
          (newValue, true, None))
    else (db, ([], false, None)).
Proof.
  intros Hfaults Hrows Hkey.
  destruct db as [t n f]. simpl in Hfaults, Hrows. subst f.
  unfold sqlite.CmpAndSwap, sql.Begin. simpl.
  case_bool_decide as Hold.
  - subst oldValue.
    pose proof (cmpAndSwap_match (sql.mkSqlTx t false)
                  bucket key rows eq_refl Hrows newValue) as Hcas.
    rewrite Hkey in Hcas. simpl in Hcas. by rewrite Hcas.
  - pose proof (cmpAndSwap_mismatch (sql.mkSqlTx t false)
                  bucket key rows eq_refl Hrows oldValue newValue) as Hcas.
    rewrite Hkey in Hcas. simpl in Hcas. rewrite Hcas by congruence.
    done.
Qed.

Lemma CmpAndSwap_absent_key_witness :
  sqlite.CmpAndSwap db_users users bob [] (B "5")
  = (sql.with_tables db_users
       (<[users := <[bob := B "5"]> {[ alice := B "1" ]}]> (sql.tables db_users)),
     (B "5", true, None)) ∧
  sqlite.CmpAndSwap db_users users bob (B "4") (B "5") = (db_users, ([], false, None)).
Proof.
  split.
  - apply (CmpAndSwap_absent_key db_users users bob [] (B "5") {[ alice := B "1" ]}).
    + reflexivity.
    + exact db_users_table.
    + exact db_users_bob.
  - apply (CmpAndSwap_absent_key db_users users bob (B "4") (B "5") {[ alice := B "1" ]}).
    + reflexivity.
    + exact db_users_table.
    + exact db_users_bob.
Defined.

(** ** The loop of Update *)

(** The loop runs a list of operations front to back: after a prefix that
    falls through, it goes on with the rest from the transaction the prefix
    left; a prefix that returns ends it. *)
Lemma Update_loop_app (db : sql.DB) (pre ops : list Operation) :
  ∀ sqlTx : sql.Tx,
    sqlite.Update_loop sqlTx db (pre ++ ops)
    = match sqlite.Update_loop sqlTx db pre with
      | (pre', inl r) => (pre' ++ ops, inl r)
      | (pre', inr sqlTx') =>
          (pre' ++ (sqlite.Update_loop sqlTx' db ops).1,
           (sqlite.Update_loop sqlTx' db ops).2)
      end.
Proof.
  induction pre as [|q pre IH]; intros sqlTx; simpl.
  - by destruct (sqlite.Update_loop sqlTx db ops).
  - destruct (sqlite.Update_op sqlTx db q) as [sqlTx1 q1 | db1 q1 e1]; [|done].
    rewrite IH.
    by destruct (sqlite.Update_loop sqlTx1 db pre) as [pre' [r | sqlTx']].
Qed.

(** C6: inside [Update], a [CmpAndSwap] operation whose [CmpValue] is not
    the value the transaction sees for the key (an absent row read as empty)
    does not end the loop: [Result] becomes that current value, [Swapped]
    becomes [false], the transaction is as it was, and the loop goes on with
    the next operation. *)
Theorem Update_CmpAndSwap_mismatch_continues
    (sqlTx : sql.Tx) (db : sql.DB) (q : Operation) (rest : list Operation)
    (rows : gmap bytes bytes) :
  Cmd q = database.CmpAndSwap →
  sql.done sqlTx = false →
  sql.view sqlTx !! Bucket q = Some rows →
  default [] (rows !! Key q) ≠ CmpValue q →
  ∃ q' : Operation,
    Result q' = default [] (rows !! Key q) ∧
    Swapped q' = false ∧
    sqlite.Update_op sqlTx db q = sqlite.Next sqlTx q' ∧
    sqlite.Update_loop sqlTx db (q :: rest)
    = (q' :: (sqlite.Update_loop sqlTx db rest).1,
       (sqlite.Update_loop sqlTx db rest).2).
Proof.
  intros Hcmd Hopen Hrows Hne.
  exists (set_Swapped (set_Result q (default [] (rows !! Key q))) false).
  assert (Hop : sqlite.Update_op sqlTx db q
                = sqlite.Next sqlTx
                    (set_Swapped (set_Result q (default [] (rows !! Key q))) false)).
  { unfold sqlite.Update_op. rewrite Hcmd.
    repeat (case_decide; [discriminate|]).
    case_decide; [|done].
    by rewrite (cmpAndSwap_mismatch sqlTx (Bucket q) (Key q) rows Hopen Hrows _ _ Hne). }
  split_and!; [done | done | done |].
  simpl. rewrite Hop. by destruct (sqlite.Update_loop sqlTx db rest).
Qed.

Lemma Update_CmpAndSwap_mismatch_continues_witness :
  ∃ q' : Operation,
    Result q' = default [] (({[ alice := B "1" ]} : gmap bytes bytes) !! alice) ∧
    Swapped q' = false ∧
    sqlite.Update_op (sql.mkSqlTx (sql.tables db_users) false) db_users
      (op database.CmpAndSwap users alice (B "3") (B "7"))
    = sqlite.Next (sql.mkSqlTx (sql.tables db_users) false) q' ∧
    sqlite.Update_loop (sql.mkSqlTx (sql.tables db_users) false) db_users
      (op database.CmpAndSwap users alice (B "3") (B "7")
       :: [op database.Set_ users bob (B "5") []])
    = (q' :: (sqlite.Update_loop (sql.mkSqlTx (sql.tables db_users) false) db_users
                [op database.Set_ users bob (B "5") []]).1,
       (sqlite.Update_loop (sql.mkSqlTx (sql.tables db_users) false) db_users
          [op database.Set_ users bob (B "5") []]).2).
Proof.
  apply (Update_CmpAndSwap_mismatch_continues
           (sql.mkSqlTx (sql.tables db_users) false) db_users
           (op database.CmpAndSwap users alice (B "3") (B "7"))
           [op database.Set_ users bob (B "5") []]
           {[ alice := B "1" ]}).
  - reflexivity.
  - reflexivity.
  - exact db_users_table.
  - simpl. rewrite db_users_alice. vm_compute. discriminate.
Defined.

(** The scenario run through [Update] itself: the mismatching [CmpAndSwap]
    is followed by a [Set], which is executed and committed. *)
Example Update_runs_past_mismatch :
  let r := sqlite.Update db_users
             (mkTx [op database.CmpAndSwap users alice (B "3") (B "7");
                    op database.Set_ users bob (B "5") []]) in
  r.2 = None ∧
  Result <$> Operations r.1.2 = [B "1"; []] ∧
  Swapped <$> Operations r.1.2 = [false; false] ∧
  sql.tables r.1.1 !! users = Some (<[bob := B "5"]> {[ alice := B "1" ]}).
Proof. repeat split. Qed.

(** ** Operations Update does not support *)

Lemma CmpOrRollback_unsupported : unsupported database.CmpOrRollback.
Proof. repeat split; discriminate. Defined.

Lemma Update_op_unsupported (sqlTx : sql.Tx) (db : sql.DB) (q : Operation) :
  unsupported (Cmd q) →
  sqlite.Update_op sqlTx db q = sqlite.Return db q ErrOpNotSupported.
Proof.
  intros (H0 & H1 & H2 & H3 & H4 & H5). unfold sqlite.Update_op.
  repeat (case_decide; [contradiction|]). by case_decide.
Qed.

(** A loop that meets an unsupported operation never reaches its end. *)
Lemma Update_loop_unsupported (db : sql.DB) (q : Operation) (rest pre : list Operation) :
  unsupported (Cmd q) →
  ∀ sqlTx : sql.Tx,
    ∃ r, (sqlite.Update_loop sqlTx db (pre ++ q :: rest)).2 = inl r.
Proof.
  intros Hq sqlTx. rewrite Update_loop_app.
  destruct (sqlite.Update_loop sqlTx db pre) as [pre' [r | sqlTx']]; simpl.
  - by exists r.
  - rewrite (Update_op_unsupported _ _ _ Hq). by eexists.
Qed.

(** C5, as the code has it: a transaction that holds an unsupported
    operation never makes [Update] return nil, and when the transaction
    begins and the operations before the unsupported one all fall through,
    [Update] returns [ErrOpNotSupported] itself, which
    [IsErrOpNotSupported] accepts. *)
Theorem Update_unsupported
    (db : sql.DB) (pre : list Operation) (q : Operation) (rest : list Operation) :
  unsupported (Cmd q) →
  (sqlite.Update db (mkTx (pre ++ q :: rest))).2 ≠ None ∧
  ∀ (pre' : list Operation) (sqlTx' : sql.Tx),
    sql.begin_fault (sql.faults db) = None →
    sqlite.Update_loop (sql.mkSqlTx (sql.tables db) false) (sql.Begin db).1 pre
    = (pre', inr sqlTx') →
    (sqlite.Update db (mkTx (pre ++ q :: rest))).2 = Some ErrOpNotSupported ∧
    IsErrOpNotSupported (sqlite.Update db (mkTx (pre ++ q :: rest))).2 = true ∧
    Operations (sqlite.Update db (mkTx (pre ++ q :: rest))).1.2 = pre' ++ q :: rest.
Proof.
  intros Hq. split.
  - unfold sqlite.Update, sql.Begin.
    destruct (sql.begin_fault (sql.faults db)); [done|]. simpl.
    destruct (Update_loop_unsupported
                (sql.mkDB (sql.tables db) (S (sql.open_txs db)) (sql.faults db))
                q rest pre Hq (sql.mkSqlTx (sql.tables db) false)) as [[d e] Hr].
    destruct (sqlite.Update_loop _ _ (pre ++ q :: rest)) as [ops r].
    simpl in Hr. by subst r.
  - intros pre' sqlTx' Hbegin Hpre.
    unfold sqlite.Update. unfold sql.Begin in *. rewrite Hbegin in *. simpl in *.
    rewrite Update_loop_app, Hpre. simpl.
    rewrite (Update_op_unsupported _ _ _ Hq). done.
Qed.

Lemma Update_unsupported_witness :
  let tx := mkTx ([op database.Set_ users bob (B "5") []]
                  ++ op database.CmpOrRollback users alice (B "2") (B "1") :: []) in
  (sqlite.Update db_users tx).2 ≠ None ∧
  (sqlite.Update db_users tx).2 = Some ErrOpNotSupported ∧
  IsErrOpNotSupported (sqlite.Update db_users tx).2 = true ∧
  Operations (sqlite.Update db_users tx).1.2
  = [op database.Set_ users bob (B "5") []]
    ++ op database.CmpOrRollback users alice (B "2") (B "1") :: [].
Proof.
  destruct (Update_unsupported db_users
              [op database.Set_ users bob (B "5") []]
              (op database.CmpOrRollback users alice (B "2") (B "1")) []
              CmpOrRollback_unsupported) as [Hnil Hreached].
  split; [exact Hnil|].
  apply (Hreached [op database.Set_ users bob (B "5") []]
           (sql.mkSqlTx (<[users := <[bob := B "5"]> {[ alice := B "1" ]}]>
                           (sql.tables db_users)) false)).
  - reflexivity.
  - reflexivity.
Defined.

(** C5 as it is worded fails: an operation that fails before the
    unsupported one is reached decides the error.  Here a [Get] of an absent
    key comes first, and [Update] returns its not-found error. *)
Lemma Update_unsupported_counterexample :
  ¬ (∀ (db : sql.DB) (tx : Tx) (q : Operation),
       In q (Operations tx) →
       Cmd q = database.CmpOrRollback →
       IsErrOpNotSupported (sqlite.Update db tx).2 = true).
Proof.
  intros H.
  specialize (H db_users
                (mkTx [op database.Get users bob [] [];
                       op database.CmpOrRollback users alice (B "2") (B "1")])
                (op database.CmpOrRollback users alice (B "2") (B "1"))).
  assert (Hfalse : IsErrOpNotSupported
                     (sqlite.Update db_users
                        (mkTx [op database.Get users bob [] [];
                               op database.CmpOrRollback users alice (B "2") (B "1")])).2
                   = false) by (vm_compute; reflexivity).
  rewrite H in Hfalse; [discriminate | right; left; reflexivity | reflexivity].
Qed.

(** ** Failure inside Update and CmpAndSwap *)

Lemma Rollback_tables (sqlTx : sql.Tx) (db : sql.DB) :
  sql.tables (sql.Rollback sqlTx db).1.2 = sql.tables db.
Proof. unfold sql.Rollback. by destruct (sql.done sqlTx). Qed.

(** The [rollback] closure on an open transaction: the transaction is
    finished, the error it is given stays the cause of the one it returns,
    and the message tells whether the rollback itself failed. *)
Lemma rollback_open (sqlTx : sql.Tx) (db : sql.DB) (err : error) :
  sql.done sqlTx = false →
  sqlite.rollback sqlTx db err
  = (sql.mkDB (sql.tables db) (pred (sql.open_txs db)) (sql.faults db),
     Wrapped err (match sql.rollback_fault (sql.faults db) with
                  | Some _ => "UPDATE failed, unable to rollback transaction"
                  | None => "UPDATE failed"
                  end)).
Proof.
  intros Hopen. unfold sqlite.rollback, sql.Rollback. rewrite Hopen.
  by destruct (sql.rollback_fault (sql.faults db)).
Qed.

Lemma rollback_tables (sqlTx : sql.Tx) (db : sql.DB) (err : error) :
  sql.tables (sqlite.rollback sqlTx db err).1 = sql.tables db.
Proof.
  unfold sqlite.rollback. pose proof (Rollback_tables sqlTx db) as H.
  by destruct (sql.Rollback sqlTx db) as [[tx' db'] [e|]].
Qed.

Lemma rollback_Cause (sqlTx : sql.Tx) (db : sql.DB) (err : error) :
  errors.Cause (sqlite.rollback sqlTx db err).2 = errors.Cause err.
Proof.
  unfold sqlite.rollback.
  by destruct (sql.Rollback sqlTx db) as [[tx' db'] [e|]].
Qed.

Lemma fail_tables (sqlTx : sql.Tx) (db db' : sql.DB) (q q' : Operation) (err e : error) :
  sqlite.fail sqlTx db q err = sqlite.Return db' q' e →
  sql.tables db' = sql.tables db.
Proof.
  unfold sqlite.fail. pose proof (rollback_tables sqlTx db err) as H.
  destruct (sqlite.rollback sqlTx db err) as [d x]. intros [= <- _ _]. done.
Qed.

(** Whatever way a turn of the loop makes [Update] return, the committed
    tables are the ones it started from. *)
Lemma Update_op_Return_tables
    (sqlTx : sql.Tx) (db db' : sql.DB) (q q' : Operation) (e : error) :
  sqlite.Update_op sqlTx db q = sqlite.Return db' q' e →
  sql.tables db' = sql.tables db.
Proof.
  unfold sqlite.Update_op.
  repeat case_decide;
    repeat match goal with
      | |- context [sql.TxExec ?t ?s ?a] => destruct (sql.TxExec t s a) as [? [?|]]
      | |- context [sql.TxQueryRow ?t ?s ?a] => destruct (sql.TxQueryRow t s a)
      | |- context [sqlite.cmpAndSwap ?t ?b ?k ?o ?n] =>
          destruct (sqlite.cmpAndSwap t b k o n) as [? [[? ?] [?|]]]
      | |- context [bool_decide ?P] => destruct (bool_decide P)
      | |- context [HasPrefix ?a ?b] => destruct (HasPrefix a b)
      end;
    intros Hr; try discriminate Hr;
    try (by apply fail_tables in Hr);
    by injection Hr as <- _ _.
Qed.

Lemma Update_loop_Return_tables (db : sql.DB) (ops : list Operation) :
  ∀ (sqlTx : sql.Tx) (ops' : list Operation) (db' : sql.DB) (e : error),
    sqlite.Update_loop sqlTx db ops = (ops', inl (db', e)) →
    sql.tables db' = sql.tables db.
Proof.
  induction ops as [|q rest IH]; intros sqlTx ops' db' e; simpl; [done|].
  destruct (sqlite.Update_op sqlTx db q) as [sqlTx1 q1 | db1 q1 e1] eqn:Hop.
  - destruct (sqlite.Update_loop sqlTx1 db rest) as [rest' r] eqn:Hrest.
    intros [= _ ->]. by eapply IH.
  - intros [= _ <- _]. by eapply Update_op_Return_tables.
Qed.

(** X17: atomicity of the committed state: an [Update] that returns an error,
    from whatever branch, has published nothing. *)
Lemma Update_error_keeps_tables (db : sql.DB) (tx : Tx) :
  (sqlite.Update db tx).2 ≠ None →
  sql.tables (sqlite.Update db tx).1.1 = sql.tables db.
Proof.
  unfold sqlite.Update, sql.Begin.
  destruct (sql.begin_fault (sql.faults db)); [done|].
  destruct (sqlite.Update_loop _ _ (Operations tx)) as [ops [[d e] | sqlTx']] eqn:Hloop.
  - intros _. simpl. by apply Update_loop_Return_tables in Hloop.
  - unfold sql.Commit.
    destruct (sql.done sqlTx'); simpl.
    + intros _. pose proof (rollback_tables sqlTx'
                  (sql.mkDB (sql.tables db) (S (sql.open_txs db)) (sql.faults db))
                  (Stacked ErrTxDone)) as H.
      by destruct (sqlite.rollback _ _ _).
    + destruct (sql.commit_fault (sql.faults db)) as [msg|]; simpl; [|done].
      intros _.
      pose proof (rollback_tables (sql.mkSqlTx (sql.view sqlTx') true)
                    (sql.mkDB (sql.tables db) (sql.open_txs db) (sql.faults db))
                    (Stacked (DriverError msg))) as H.
      by destruct (sqlite.rollback _ _ _).
Qed.

(** The two ways out of the loop that do not go through [rollback]: a
    [DeleteTable] of a table the transaction does not see, and an
    unsupported operation ([Update_op_unsupported]).  Both hand back the
    handle as it is in the middle of the transaction. *)
Lemma Update_op_DeleteTable_missing (sqlTx : sql.Tx) (db : sql.DB) (q : Operation) :
  Cmd q = database.DeleteTable →
  sql.done sqlTx = false →
  sql.view sqlTx !! Bucket q = None →
  sqlite.Update_op sqlTx db q
  = sqlite.Return db q (Wrapped ErrNotFound ("no such table: " +:+ fmt_s (Bucket q))).
Proof.
  intros Hcmd Hopen Hnone. unfold sqlite.Update_op. rewrite Hcmd.
  case_decide; [discriminate|]. case_decide; [|done].
  unfold sql.TxExec, sqlite.deleteTableQry. rewrite Hopen. simpl.
  rewrite Hnone. by rewrite no_such_table_prefix.
Qed.

(** The sibling branch: a [Set] into a table the transaction does not see
    goes through [rollback]. *)
Lemma Update_op_Set_missing (sqlTx : sql.Tx) (db : sql.DB) (q : Operation) :
  Cmd q = database.Set_ →
  sql.done sqlTx = false →
  sql.view sqlTx !! Bucket q = None →
  sqlite.Update_op sqlTx db q
  = sqlite.fail sqlTx db q
      (Wrapped (sql.no_such_table (Bucket q))
         ("failed to set " +:+ sqlite.slash (Bucket q) (Key q))).
Proof.
  intros Hcmd Hopen Hnone. unfold sqlite.Update_op. rewrite Hcmd.
  repeat (case_decide; [discriminate|]). case_decide; [|done].
  unfold sql.TxExec, sqlite.insertUpdateQry. rewrite Hopen. simpl.
  by rewrite Hnone.
Qed.

(** C1, where the code departs from it: [Update] is given a [Set] into
    [users] followed by an operation that fails.  When that operation is a
    [Get] of an absent key the transaction is rolled back and none is left
    open.  When it is a [DeleteTable] of a missing table, or a
    [CmpOrRollback], [Update] returns the error with the transaction still
    open, neither committed nor rolled back; the committed tables are
    unchanged in all three. *)
Theorem Update_failure_without_rollback :
  let set_bob := op database.Set_ users bob (B "5") [] in
  let rolled := sqlite.Update db_users
                  (mkTx [set_bob; op database.Get users bob [] []]) in
  let dropped := sqlite.Update db_users
                   (mkTx [set_bob; op database.DeleteTable ghost [] [] []]) in
  let refused := sqlite.Update db_users
                   (mkTx [set_bob; op database.CmpOrRollback users alice [] []]) in
  (sqlite.Update db_users (mkTx [set_bob; op database.Get ghost bob [] []])).2
  = Some (Wrapped (Wrapped (DriverError "no such table: ghost") "failed to get ghost/bob")
            "UPDATE failed") ∧
  sql.open_txs (sqlite.Update db_users
                  (mkTx [set_bob; op database.Get ghost bob [] []])).1.1 = 0 ∧
  dropped.2 = Some (Wrapped ErrNotFound "no such table: ghost") ∧
  sql.open_txs dropped.1.1 = 1 ∧
  refused.2 = Some ErrOpNotSupported ∧
  sql.open_txs refused.1.1 = 1 ∧
  sql.tables dropped.1.1 = sql.tables db_users ∧
  sql.tables refused.1.1 = sql.tables db_users ∧
  sql.open_txs rolled.1.1 = 0.
Proof. repeat split. Qed.


(** C4, where the code departs from it: on an engine whose rollback fails,
    a failing [Set] inside [Update] comes back as the operation's error
    wrapped with a message that tells of the failed rollback, while
    [CmpAndSwap] on a missing bucket comes back as the rollback's error
    under a message: the operation's own error, which the same call returns
    on an engine that can roll back, is not in it. *)
Theorem CmpAndSwap_rollback_failure_drops_cause :
  (sqlite.Update db_users_lossy (mkTx [op database.Set_ ghost alice (B "2") []])).2
  = Some (Wrapped
            (Wrapped (DriverError "no such table: ghost") "failed to set ghost/alice")
            "UPDATE failed, unable to rollback transaction") ∧
  (sqlite.CmpAndSwap db_users ghost alice [] (B "2")).2
  = ([], false, Some (DriverError "no such table: ghost")) ∧
  (sqlite.CmpAndSwap db_users_lossy ghost alice [] (B "2")).2
  = ([], false,
     Some (Wrapped (DriverError "disk I/O error")
             "failed to execute CmpAndSwap transaction on ghost/alice and failed to rollback transaction")).
Proof. repeat split. Qed.

(** ** The scenario of the contract, end to end *)

Example contract_scenario :
  let db0 := sql.mkDB ∅ 0 sql.no_faults in
  let db1 := (sqlite.CreateTable db0 users).1 in
  let db2 := (sqlite.Set_ db1 users alice (B "1")).1 in
  let cas1 := sqlite.CmpAndSwap db2 users alice (B "1") (B "2") in
  let cas2 := sqlite.CmpAndSwap cas1.1 users alice (B "1") (B "3") in
  let db5 := (sqlite.Del cas2.1 users alice).1 in
  let db6 := (sqlite.DeleteTable db5 users).1 in
  sqlite.Get db2 users alice = (B "1", None) ∧
  cas1.2 = (B "2", true, None) ∧
  cas2.2 = (B "2", false, None) ∧
  (sqlite.Del cas2.1 users alice).2 = None ∧
  IsErrNotFound (sqlite.Get db5 users alice).2 = true ∧
  (sqlite.DeleteTable db5 users).2 = None ∧
  IsErrNotFound (sqlite.List db6 users).2 = true.
Proof. repeat split. Qed.

(** * Further properties of the adapter *)

(** ** Del *)

(** X1: on an existing bucket [Del] returns nil, the row is gone from the
    table, and a [Get] of the key that follows fails with an error that
    [IsErrNotFound] accepts. *)
Theorem Del_then_Get (db : sql.DB) (bucket key : bytes) (rows : gmap bytes bytes) :
  sql.tables db !! bucket = Some rows →
  (sqlite.Del db bucket key).2 = None ∧
  sql.tables (sqlite.Del db bucket key).1 !! bucket = Some (delete key rows) ∧
  IsErrNotFound (sqlite.Get (sqlite.Del db bucket key).1 bucket key).2 = true.
Proof.
  intros Hrows.
  unfold sqlite.Del, sqlite.delQry, sql.Exec. simpl. rewrite Hrows. simpl.
  split_and!; [done | by rewrite lookup_insert_eq |].
  unfold sqlite.Get, sqlite.getQry, sql.QueryRow, sql.Query. simpl.
  by rewrite lookup_insert_eq, lookup_delete_eq.
Qed.

Lemma Del_then_Get_witness :
  (sqlite.Del db_users users alice).2 = None ∧
  sql.tables (sqlite.Del db_users users alice).1 !! users
  = Some (delete alice {[ alice := B "1" ]}) ∧
  IsErrNotFound (sqlite.Get (sqlite.Del db_users users alice).1 users alice).2 = true.
Proof.
  apply (Del_then_Get db_users users alice {[ alice := B "1" ]}).
  exact db_users_table.
Defined.

(** X2: [Del] of a key the bucket does not hold is not an error: it returns
    nil and leaves the database exactly as it was. *)
Theorem Del_absent_key (db : sql.DB) (bucket key : bytes) (rows : gmap bytes bytes) :
  sql.tables db !! bucket = Some rows →
  rows !! key = None →
  sqlite.Del db bucket key = (db, None).
Proof.
  intros Hrows Hkey.
  unfold sqlite.Del, sqlite.delQry, sql.Exec. simpl. rewrite Hrows. simpl.
  rewrite (delete_id rows key Hkey), (insert_id _ _ _ Hrows).
  unfold sql.with_tables. by rewrite db_eta.
Qed.

Lemma Del_absent_key_witness : sqlite.Del db_users users bob = (db_users, None).
Proof.
  apply (Del_absent_key db_users users bob {[ alice := B "1" ]}).
  - exact db_users_table.
  - exact db_users_bob.
Defined.



(** ** What Set and Del leave alone *)





(** ** Set on its own *)





(** ** CreateTable and DeleteTable *)

(** X8: [CreateTable] of a bucket that exists returns nil and leaves the
    database, the bucket's rows included, exactly as it was. *)
Theorem CreateTable_existing (db : sql.DB) (bucket : bytes) (rows : gmap bytes bytes) :
  sql.tables db !! bucket = Some rows →
  sqlite.CreateTable db bucket = (db, None).
Proof.
  intros Hrows.
  unfold sqlite.CreateTable, sqlite.createTableQry, sql.Exec. simpl.
  rewrite Hrows. unfold sql.with_tables. by rewrite db_eta.
Qed.

Lemma CreateTable_existing_witness : sqlite.CreateTable db_users users = (db_users, None).
Proof.
  apply (CreateTable_existing db_users users {[ alice := B "1" ]}).
  exact db_users_table.
Defined.






(** ** List *)







(** ** Get and CmpAndSwap on a bucket that does not exist *)



(** ** What CmpAndSwap can leave behind *)

(** X15: whatever the database and the engine's faults, [CmpAndSwap] ends in
    one of two ways.  Either it reports [swapped = false], the tables are
    the ones it found, and an error comes with a nil value; or it reports
    [swapped = true] with a nil error and the new value, the value stored
    for the key (an absent row read as empty) was the expected one, and the
    only change is that the key now holds the new value. *)
Theorem CmpAndSwap_outcome (db : sql.DB) (bucket key oldValue newValue : bytes) :
  let '(db', (val, swapped, err)) :=
    sqlite.CmpAndSwap db bucket key oldValue newValue in
  (swapped = false ∧ sql.tables db' = sql.tables db ∧ (err ≠ None → val = [])) ∨
  (swapped = true ∧ err = None ∧ val = newValue ∧
   ∃ rows : gmap bytes bytes,
     sql.tables db !! bucket = Some rows ∧
     default [] (rows !! key) = oldValue ∧
     sql.tables db' = <[bucket := <[key := newValue]> rows]> (sql.tables db)).
Proof.
  unfold sqlite.CmpAndSwap, sql.Begin.
  destruct (sql.begin_fault (sql.faults db)); [by left|].
  destruct (sql.tables db !! bucket) as [rows|] eqn:Hrows.
  - destruct (decide (default [] (rows !! key) = oldValue)) as [Heq|Hne].
    + subst oldValue.
      rewrite (cmpAndSwap_match (sql.mkSqlTx (sql.tables db) false)
                 bucket key rows eq_refl Hrows newValue).
      unfold sql.Commit. simpl.
      destruct (sql.commit_fault (sql.faults db)); [by left|].
      right. split_and!; [done..|]. by exists rows.
    + rewrite (cmpAndSwap_mismatch (sql.mkSqlTx (sql.tables db) false)
                 bucket key rows eq_refl Hrows oldValue newValue Hne).
      unfold sql.Rollback. simpl.
      destruct (sql.rollback_fault (sql.faults db)); by left.
  - unfold sqlite.cmpAndSwap, sqlite.getQryForUpdate, sql.TxQueryRow. simpl.
    rewrite Hrows. rewrite no_such_table_not_ErrNoRows. simpl.
    unfold sql.Rollback. simpl.
    destruct (sql.rollback_fault (sql.faults db)); by left.
Qed.

(** X16: [CmpAndSwap] never leaves its transaction open: on every path,
    failed begin, failed read, mismatch, commit or failed commit, the
    number of open transactions and the faults of the handle are the ones
    it found. *)
Theorem CmpAndSwap_closes_its_transaction
    (db : sql.DB) (bucket key oldValue newValue : bytes) :
  sql.open_txs (sqlite.CmpAndSwap db bucket key oldValue newValue).1 = sql.open_txs db ∧
  sql.faults (sqlite.CmpAndSwap db bucket key oldValue newValue).1 = sql.faults db.
Proof.
  unfold sqlite.CmpAndSwap, sql.Begin.
  destruct (sql.begin_fault (sql.faults db)); [done|].
  destruct (sql.tables db !! bucket) as [rows|] eqn:Hrows.
  - destruct (decide (default [] (rows !! key) = oldValue)) as [Heq|Hne].
    + subst oldValue.
      rewrite (cmpAndSwap_match (sql.mkSqlTx (sql.tables db) false)
                 bucket key rows eq_refl Hrows newValue).
      unfold sql.Commit. simpl.
      by destruct (sql.commit_fault (sql.faults db)).
    + rewrite (cmpAndSwap_mismatch (sql.mkSqlTx (sql.tables db) false)
                 bucket key rows eq_refl Hrows oldValue newValue Hne).
      unfold sql.Rollback. simpl.
      by destruct (sql.rollback_fault (sql.faults db)).
  - unfold sqlite.cmpAndSwap, sqlite.getQryForUpdate, sql.TxQueryRow. simpl.
    rewrite Hrows. rewrite no_such_table_not_ErrNoRows. simpl.
    unfold sql.Rollback. simpl.
    by destruct (sql.rollback_fault (sql.faults db)).
Qed.

(** ** Update as a whole *)

Lemma Update_error_keeps_tables_witness :
  sql.tables (sqlite.Update db_users
                (mkTx [op database.Set_ users bob (B "5") [];
                       op database.Get ghost bob [] []])).1.1
  = sql.tables db_users.
Proof.
  apply (Update_error_keeps_tables db_users
           (mkTx [op database.Set_ users bob (B "5") [];
                  op database.Get ghost bob [] []])).
  intros H. vm_compute in H. discriminate H.
Defined.

Lemma Update_op_inputs (sqlTx : sql.Tx) (db : sql.DB) (q : Operation) :
  match sqlite.Update_op sqlTx db q with
  | sqlite.Next _ q' => inputs q' = inputs q
  | sqlite.Return _ q' _ => inputs q' = inputs q
  end.
Proof.
  unfold sqlite.Update_op, sqlite.fail.
  repeat case_decide;
    repeat match goal with
      | |- context [sql.TxExec ?t ?s ?a] => destruct (sql.TxExec t s a) as [? [?|]]
      | |- context [sql.TxQueryRow ?t ?s ?a] => destruct (sql.TxQueryRow t s a)
      | |- context [sqlite.cmpAndSwap ?t ?b ?k ?o ?n] =>
          destruct (sqlite.cmpAndSwap t b k o n) as [? [[? ?] [?|]]]
      | |- context [bool_decide ?P] => destruct (bool_decide P)
      | |- context [HasPrefix ?a ?b] => destruct (HasPrefix a b)
      | |- context [sqlite.rollback ?t ?d ?e] => destruct (sqlite.rollback t d e)
      end;
    done.
Qed.

(** X18: [Update] writes only [Result] and [Swapped]: whatever happens, the
    transaction it hands back has the same operations in the same order,
    each with the command, bucket, key, value and comparison value it came
    with. *)
Theorem Update_keeps_inputs (db : sql.DB) (tx : Tx) :
  inputs <$> Operations (sqlite.Update db tx).1.2 = inputs <$> Operations tx.
Proof.
  assert (Hloop : ∀ ops sqlTx d,
            inputs <$> (sqlite.Update_loop sqlTx d ops).1 = inputs <$> ops).
  { induction ops as [|q rest IH]; intros sqlTx d; simpl; [done|].
    pose proof (Update_op_inputs sqlTx d q) as Hq.
    destruct (sqlite.Update_op sqlTx d q) as [sqlTx1 q1 | d1 q1 e1]; simpl.
    - specialize (IH sqlTx1 d).
      destruct (sqlite.Update_loop sqlTx1 d rest) as [rest' r]. cbn [fst] in *.
      rewrite fmap_cons, Hq, IH. reflexivity.
    - simpl. rewrite Hq. reflexivity. }
  unfold sqlite.Update, sql.Begin.
  destruct (sql.begin_fault (sql.faults db)); [done|].
  specialize (Hloop (Operations tx) (sql.mkSqlTx (sql.tables db) false)
                (sql.mkDB (sql.tables db) (S (sql.open_txs db)) (sql.faults db))).
  destruct (sqlite.Update_loop _ _ (Operations tx)) as [ops [[d e] | sqlTx']];
    simpl in *; [done|].
  destruct (sql.Commit sqlTx' _) as [[tx' d'] [e|]]; simpl; [|done].
  by destruct (sqlite.rollback _ _ _).
Qed.

(** Picks the branch of the [switch] of [Update_op] for a known command. *)
Ltac switch_on Hcmd :=
  unfold sqlite.Update_op; rewrite Hcmd;
  repeat (let Hd := fresh "Hd" in
          case_decide as Hd;
          [try discriminate Hd | try (exfalso; apply Hd; reflexivity)]).

Lemma TxExec_open (sqlTx : sql.Tx) (q : sql.Stmt) (args : list bytes) :
  sql.done sqlTx = false → sql.done (sql.TxExec sqlTx q args).1 = false.
Proof.
  intros Hopen. unfold sql.TxExec. rewrite Hopen.
  by destruct (sql.run q args (sql.view sqlTx)) as [e|[s rs]].
Qed.

Lemma cmpAndSwap_open (sqlTx : sql.Tx) (bucket key oldValue newValue : bytes) :
  sql.done sqlTx = false →
  sql.done (sqlite.cmpAndSwap sqlTx bucket key oldValue newValue).1 = false.
Proof.
  intros Hopen. unfold sqlite.cmpAndSwap.
  pose proof (TxExec_open sqlTx (sqlite.insertUpdateQry bucket)
                [key; newValue; newValue] Hopen) as Hexec.
  destruct (sql.TxExec sqlTx _ _) as [tx' [e|]];
    repeat (case_match; simpl in *; try done).
Qed.

(** A turn of the loop that falls through hands on an open transaction. *)
Lemma Update_op_Next_open
    (sqlTx sqlTx' : sql.Tx) (db : sql.DB) (q q' : Operation) :
  sql.done sqlTx = false →
  sqlite.Update_op sqlTx db q = sqlite.Next sqlTx' q' →
  sql.done sqlTx' = false.
Proof.
  intros Hopen. unfold sqlite.Update_op, sqlite.fail.
  repeat case_decide;
    repeat match goal with
      | |- context [sql.TxExec ?t ?s ?a] =>
          let H := fresh in
          pose proof (TxExec_open t s a Hopen) as H;
          destruct (sql.TxExec t s a) as [? [?|]]
      | |- context [sql.TxQueryRow ?t ?s ?a] => destruct (sql.TxQueryRow t s a)
      | |- context [sqlite.cmpAndSwap ?t ?b ?k ?o ?n] =>
          let H := fresh in
          pose proof (cmpAndSwap_open t b k o n Hopen) as H;
          destruct (sqlite.cmpAndSwap t b k o n) as [? [[? ?] [?|]]]
      | |- context [bool_decide ?P] => destruct (bool_decide P)
      | |- context [HasPrefix ?a ?b] => destruct (HasPrefix a b)
      | |- context [sqlite.rollback ?t ?d ?e] => destruct (sqlite.rollback t d e)
      end;
    intros Hr; try discriminate Hr; injection Hr as <- _; simpl in *; done.
Qed.

Lemma Update_loop_open (db : sql.DB) (ops : list Operation) :
  ∀ (sqlTx sqlTx' : sql.Tx) (ops' : list Operation),
    sql.done sqlTx = false →
    sqlite.Update_loop sqlTx db ops = (ops', inr sqlTx') →
    sql.done sqlTx' = false.
Proof.
  induction ops as [|q rest IH]; intros sqlTx sqlTx' ops' Hopen; simpl.
  - by intros [= _ <-].
  - destruct (sqlite.Update_op sqlTx db q) as [sqlTx1 q1 | d1 q1 e1] eqn:Hop; [|done].
    apply Update_op_Next_open in Hop; [|done].
    destruct (sqlite.Update_loop sqlTx1 db rest) as [rest' r] eqn:Hrest.
    intros [= _ ->]. by eapply IH.
Qed.

(** Through the [rollback] closure an open transaction is finished, and the
    handle keeps its tables and faults. *)
Lemma fail_open (sqlTx : sql.Tx) (db db' : sql.DB) (q q' : Operation) (err e : error) :
  sql.done sqlTx = false →
  sqlite.fail sqlTx db q err = sqlite.Return db' q' e →
  db' = sql.mkDB (sql.tables db) (pred (sql.open_txs db)) (sql.faults db) ∧
  errors.Cause e = errors.Cause err.
Proof.
  intros Hopen. unfold sqlite.fail. rewrite (rollback_open sqlTx db err Hopen).
  by intros [= <- _ <-].
Qed.

Lemma Update_op_rolls_back
    (sqlTx : sql.Tx) (db db' : sql.DB) (q q' : Operation) (e : error) :
  sql.done sqlTx = false →
  rolls_back (Cmd q) →
  sqlite.Update_op sqlTx db q = sqlite.Return db' q' e →
  db' = sql.mkDB (sql.tables db) (pred (sql.open_txs db)) (sql.faults db).
Proof.
  intros Hopen [H|[H|[H|[H|H]]]]; switch_on H;
    repeat match goal with
      | |- context [sql.TxExec ?t ?s ?a] =>
          let H := fresh in
          pose proof (TxExec_open t s a Hopen) as H;
          destruct (sql.TxExec t s a) as [? [?|]]
      | |- context [sql.TxQueryRow ?t ?s ?a] => destruct (sql.TxQueryRow t s a)
      | |- context [sqlite.cmpAndSwap ?t ?b ?k ?o ?n] =>
          let H := fresh in
          pose proof (cmpAndSwap_open t b k o n Hopen) as H;
          destruct (sqlite.cmpAndSwap t b k o n) as [? [[? ?] [?|]]]
      | |- context [bool_decide ?P] => destruct (bool_decide P)
      end;
    intros Hr; try discriminate Hr;
    by apply fail_open in Hr as [-> _].
Qed.

Lemma Update_loop_rolls_back (db : sql.DB) (ops : list Operation) :
  ∀ (sqlTx : sql.Tx) (ops' : list Operation) (db' : sql.DB) (e : error),
    sql.done sqlTx = false →
    Forall (λ q, rolls_back (Cmd q)) ops →
    sqlite.Update_loop sqlTx db ops = (ops', inl (db', e)) →
    db' = sql.mkDB (sql.tables db) (pred (sql.open_txs db)) (sql.faults db).
Proof.
  induction ops as [|q rest IH]; intros sqlTx ops' db' e Hopen Hall; simpl; [done|].
  apply Forall_cons in Hall as [Hq Hrest].
  destruct (sqlite.Update_op sqlTx db q) as [sqlTx1 q1 | d1 q1 e1] eqn:Hop.
  - apply Update_op_Next_open in Hop; [|done].
    destruct (sqlite.Update_loop sqlTx1 db rest) as [rest' r] eqn:Hloop.
    intros [= _ ->]. by eapply IH.
  - intros [= _ <- _]. by eapply Update_op_rolls_back.
Qed.

(** X19: an [Update] whose operations are all among CreateTable, Get, Set,
    Delete and CmpAndSwap never leaves its SQL transaction open: whether it
    commits, fails to commit, or rolls back after a failing operation, the
    handle has as many open transactions afterwards as before. *)
Theorem Update_closes_its_transaction (db : sql.DB) (tx : Tx) :
  Forall (λ q, rolls_back (Cmd q)) (Operations tx) →
  sql.open_txs (sqlite.Update db tx).1.1 = sql.open_txs db.
Proof.
  intros Hall. unfold sqlite.Update, sql.Begin.
  destruct (sql.begin_fault (sql.faults db)); [done|].
  destruct (sqlite.Update_loop _ _ (Operations tx)) as [ops [[d e] | sqlTx']] eqn:Hloop.
  - apply Update_loop_rolls_back in Hloop; [|done..]. by subst d.
  - apply Update_loop_open in Hloop; [|done].
    unfold sql.Commit. rewrite Hloop. simpl.
    destruct (sql.commit_fault (sql.faults db)); simpl; [|done].
    unfold sqlite.rollback, sql.Rollback. simpl. done.
Qed.

Lemma Update_closes_its_transaction_witness :
  sql.open_txs (sqlite.Update db_users
                  (mkTx [op database.Set_ users bob (B "5") [];
                         op database.Get ghost bob [] []])).1.1
  = sql.open_txs db_users.
Proof.
  apply (Update_closes_its_transaction db_users
           (mkTx [op database.Set_ users bob (B "5") [];
                  op database.Get ghost bob [] []])).
  constructor; [right; right; left; reflexivity|].
  constructor; [right; left; reflexivity|].
  constructor.
Defined.



(** X21: a [Get] of an absent key inside [Update], reached after operations
    that all fell through, ends [Update] with an error that [IsErrNotFound]
    accepts through both wrappers; the transaction is rolled back, so the
    handle is exactly as it was before [Update], and the operations before
    the [Get] keep what was written into them. *)
Theorem Update_Get_absent_NotFound
    (db : sql.DB) (pre : list Operation) (q : Operation) (rest pre' : list Operation)
    (sqlTx' : sql.Tx) (rows : gmap bytes bytes) :
  sql.begin_fault (sql.faults db) = None →
  sqlite.Update_loop (sql.mkSqlTx (sql.tables db) false) (sql.Begin db).1 pre
  = (pre', inr sqlTx') →
  Cmd q = database.Get →
  sql.view sqlTx' !! Bucket q = Some rows →
  rows !! Key q = None →
  IsErrNotFound (sqlite.Update db (mkTx (pre ++ q :: rest))).2 = true ∧
  (sqlite.Update db (mkTx (pre ++ q :: rest))).1.1 = db ∧
  Operations (sqlite.Update db (mkTx (pre ++ q :: rest))).1.2 = pre' ++ q :: rest.
Proof.
  intros Hbegin Hpre Hcmd Hrows Hkey.
  unfold sqlite.Update. unfold sql.Begin in *. rewrite Hbegin in *. simpl in *.
  pose proof (Update_loop_open _ _ (sql.mkSqlTx (sql.tables db) false) _ _
                eq_refl Hpre) as Hopen.
  rewrite Update_loop_app, Hpre. simpl.
  assert (Hop : sqlite.Update_op sqlTx'
                  (sql.mkDB (sql.tables db) (S (sql.open_txs db)) (sql.faults db)) q
                = sqlite.fail sqlTx'
                    (sql.mkDB (sql.tables db) (S (sql.open_txs db)) (sql.faults db)) q
                    (Wrapped ErrNotFound
                       (sqlite.slash (Bucket q) (Key q) +:+ " not found"))).
  { switch_on Hcmd. unfold sqlite.getQry.
    by rewrite (TxQueryRow_miss sqlTx' (Bucket q) (Key q) rows Hopen Hrows Hkey). }
  rewrite Hop. unfold sqlite.fail. rewrite (rollback_open _ _ _ Hopen). simpl.
  by rewrite db_eta.
Qed.

Lemma Update_Get_absent_NotFound_witness :
  let tx := mkTx ([op database.Set_ users alice (B "2") []]
                  ++ op database.Get users bob [] [] :: []) in
  IsErrNotFound (sqlite.Update db_users tx).2 = true ∧
  (sqlite.Update db_users tx).1.1 = db_users ∧
  Operations (sqlite.Update db_users tx).1.2
  = [op database.Set_ users alice (B "2") []] ++ op database.Get users bob [] [] :: [].
Proof.
  apply (Update_Get_absent_NotFound db_users
           [op database.Set_ users alice (B "2") []]
           (op database.Get users bob [] []) []
           [op database.Set_ users alice (B "2") []]
           (sql.mkSqlTx (<[users := <[alice := B "2"]> {[ alice := B "1" ]}]>
                           (sql.tables db_users)) false)
           (<[alice := B "2"]> {[ alice := B "1" ]})); reflexivity.
Defined.

(** ** Update against the single-operation methods *)

(** One turn of the loop, on a transaction that sees the tables of a handle
    without faults, against the same operation run through its method on
    that handle: the turn falls through exactly when the method returns nil,
    and then the transaction sees the tables the method left. *)
Lemma Update_op_as_method (db d : sql.DB) (q : Operation) :
  sql.faults d = sql.no_faults →
  match sqlite.Update_op (sql.mkSqlTx (sql.tables d) false) db q with
  | sqlite.Next sqlTx' _ =>
      (run_method d q).2 = None ∧
      sqlTx' = sql.mkSqlTx (sql.tables (run_method d q).1) false ∧
      sql.faults (run_method d q).1 = sql.no_faults
  | sqlite.Return _ _ _ => (run_method d q).2 ≠ None
  end.
Proof.
  intros Hfaults. destruct d as [t n f]. simpl in *. subst f.
  unfold sqlite.Update_op, run_method, sqlite.fail.
  repeat case_decide.
  - unfold sqlite.CreateTable, sqlite.createTableQry, sql.Exec, sql.TxExec. simpl.
    by destruct (t !! Bucket q).
  - unfold sqlite.DeleteTable, sqlite.deleteTableQry, sql.Exec, sql.TxExec. simpl.
    destruct (t !! Bucket q); [done|]. by rewrite !no_such_table_prefix.
  - unfold sqlite.Get, sqlite.getQry, sql.QueryRow, sql.Query, sql.TxQueryRow. simpl.
    destruct (t !! Bucket q) as [rows|]; simpl.
    + destruct (rows !! Key q); simpl; [done|].
      by destruct (sqlite.rollback _ _ _).
    + by destruct (sqlite.rollback _ _ _).
  - unfold sqlite.Set_, sqlite.insertUpdateQry, sql.Exec, sql.TxExec. simpl.
    destruct (t !! Bucket q) as [rows|]; simpl.
    + by destruct (rows !! Key q).
    + by destruct (sqlite.rollback _ _ _).
  - unfold sqlite.Del, sqlite.delQry, sql.Exec, sql.TxExec. simpl.
    destruct (t !! Bucket q) as [rows|]; simpl; [done|].
    by destruct (sqlite.rollback _ _ _).
  - unfold sqlite.CmpAndSwap, sql.Begin. simpl.
    destruct (t !! Bucket q) as [rows|] eqn:Hrows.
    + destruct (decide (default [] (rows !! Key q) = CmpValue q)) as [Heq|Hne].
      * rewrite <- Heq.
        rewrite (cmpAndSwap_match (sql.mkSqlTx t false) (Bucket q) (Key q) rows
                   eq_refl Hrows (Value q)).
        done.
      * rewrite (cmpAndSwap_mismatch (sql.mkSqlTx t false) (Bucket q) (Key q) rows
                   eq_refl Hrows (CmpValue q) (Value q) Hne).
        done.
    + unfold sqlite.cmpAndSwap, sqlite.getQryForUpdate, sql.TxQueryRow. simpl.
      rewrite Hrows. rewrite no_such_table_not_ErrNoRows. simpl.
      by destruct (sqlite.rollback _ _ _).
  - done.
  - done.
Qed.

Lemma Update_loop_as_methods (db : sql.DB) (ops : list Operation) :
  ∀ d : sql.DB,
    sql.faults d = sql.no_faults →
    match (sqlite.Update_loop (sql.mkSqlTx (sql.tables d) false) db ops).2 with
    | inr sqlTx' =>
        (run_methods d ops).2 = None ∧
        sqlTx' = sql.mkSqlTx (sql.tables (run_methods d ops).1) false
    | inl _ => (run_methods d ops).2 ≠ None
    end.
Proof.
  induction ops as [|q rest IH]; intros d Hfaults; simpl; [done|].
  pose proof (Update_op_as_method db d q Hfaults) as Hq.
  destruct (sqlite.Update_op _ db q) as [sqlTx1 q1 | d1 q1 e1].
  - destruct (run_method d q) as [d' [e|]]; simpl in Hq;
      destruct Hq as (Hnil & -> & Hfaults'); [done|].
    specialize (IH d' Hfaults').
    by destruct (sqlite.Update_loop _ db rest) as [rest' r].
  - by destruct (run_method d q) as [d' [e|]].
Qed.

(** X22: on a handle without faults, [Update] succeeds exactly when its
    operations, run one after the other through the adapter's own methods
    ([CreateTable], [DeleteTable], [Get], [Set], [Del], [CmpAndSwap]), all
    return nil, and it then commits the very tables those calls would have
    left; when one of them would fail, [Update] returns an error. *)
Theorem Update_as_methods (db : sql.DB) (tx : Tx) :
  sql.faults db = sql.no_faults →
  match (run_methods db (Operations tx)).2 with
  | None =>
      (sqlite.Update db tx).2 = None ∧
      sql.tables (sqlite.Update db tx).1.1
      = sql.tables (run_methods db (Operations tx)).1
  | Some _ => (sqlite.Update db tx).2 ≠ None
  end.
Proof.
  intros Hfaults.
  pose proof (Update_loop_as_methods
                (sql.mkDB (sql.tables db) (S (sql.open_txs db)) (sql.faults db))
                (Operations tx) db Hfaults) as Hloop.
  unfold sqlite.Update, sql.Begin. rewrite Hfaults. simpl.
  rewrite Hfaults in Hloop.
  destruct (sqlite.Update_loop _ _ (Operations tx)) as [ops [[d e] | sqlTx']];
    simpl in Hloop.
  - by destruct ((run_methods db (Operations tx)).2).
  - destruct Hloop as [-> ->]. done.
Qed.

Lemma Update_as_methods_witness :
  let tx := mkTx [op database.Set_ users bob (B "5") [];
                  op database.CmpAndSwap users alice (B "2") (B "1");
                  op database.Delete users bob [] []] in
  (sqlite.Update db_users tx).2 = None ∧
  sql.tables (sqlite.Update db_users tx).1.1
  = sql.tables (run_methods db_users (Operations tx)).1.
Proof.
  exact (Update_as_methods db_users
           (mkTx [op database.Set_ users bob (B "5") [];
                  op database.CmpAndSwap users alice (B "2") (B "1");
                  op database.Delete users bob [] []]) eq_refl).
Defined.

(** X23: when every operation falls through and the engine then refuses the
    commit, [Update] returns the commit's error as the cause, nothing is
    published, and no transaction is left open.  The transaction is already
    finished when the [rollback] closure runs, so its [Rollback] fails and
    the message is the one of a failed rollback. *)
Theorem Update_commit_failure
    (db : sql.DB) (tx : Tx) (ops' : list Operation) (sqlTx' : sql.Tx) (msg : string) :
  sql.begin_fault (sql.faults db) = None →
  sql.commit_fault (sql.faults db) = Some msg →
  sqlite.Update_loop (sql.mkSqlTx (sql.tables db) false) (sql.Begin db).1 (Operations tx)
  = (ops', inr sqlTx') →
  sqlite.Update db tx
  = (db, mkTx ops',
     Some (Wrapped (Stacked (DriverError msg))
             "UPDATE failed, unable to rollback transaction")).
Proof.
  intros Hbegin Hcommit Hloop.
  unfold sqlite.Update. unfold sql.Begin in *. rewrite Hbegin in *. simpl in *.
  pose proof (Update_loop_open _ _ (sql.mkSqlTx (sql.tables db) false) _ _
                eq_refl Hloop) as Hopen.
  rewrite Hloop. unfold sql.Commit. rewrite Hopen. simpl. rewrite Hcommit. simpl.
  unfold sqlite.rollback, sql.Rollback. simpl. by rewrite db_eta.
Qed.

Lemma Update_commit_failure_witness :
  sqlite.Update
    (sql.mkDB {[ users := {[ alice := B "1" ]} ]} 0
       (sql.mkFaults None (Some "disk full") None))
    (mkTx [op database.Set_ users bob (B "5") []])
  = (sql.mkDB {[ users := {[ alice := B "1" ]} ]} 0
       (sql.mkFaults None (Some "disk full") None),
     mkTx [op database.Set_ users bob (B "5") []],
     Some (Wrapped (Stacked (DriverError "disk full"))
             "UPDATE failed, unable to rollback transaction")).
Proof.
  apply (Update_commit_failure
           (sql.mkDB {[ users := {[ alice := B "1" ]} ]} 0
              (sql.mkFaults None (Some "disk full") None))
           (mkTx [op database.Set_ users bob (B "5") []])
           [op database.Set_ users bob (B "5") []]
           (sql.mkSqlTx (<[users := <[bob := B "5"]> {[ alice := B "1" ]}]>
                           {[ users := {[ alice := B "1" ]} ]}) false)
           "disk full"); reflexivity.
Defined.

(** ** Calls one after the other *)

(** [CmpAndSwap] on an engine without faults, in one equation for each
    outcome. *)
Lemma CmpAndSwap_swaps (db : sql.DB) (bucket key W : bytes) (rows : gmap bytes bytes) :
  sql.faults db = sql.no_faults →
  sql.tables db !! bucket = Some rows →
  sqlite.CmpAndSwap db bucket key (default [] (rows !! key)) W
  = (sql.with_tables db (<[bucket := <[key := W]> rows]> (sql.tables db)),
     (W, true, None)).
Proof.
  intros Hfaults Hrows. destruct db as [t n f]. simpl in *. subst f.
  unfold sqlite.CmpAndSwap, sql.Begin. simpl.
  by rewrite (cmpAndSwap_match (sql.mkSqlTx t false) bucket key rows eq_refl Hrows W).
Qed.

Lemma CmpAndSwap_keeps (db : sql.DB) (bucket key V W : bytes) (rows : gmap bytes bytes) :
  sql.faults db = sql.no_faults →
  sql.tables db !! bucket = Some rows →
  default [] (rows !! key) ≠ V →
  sqlite.CmpAndSwap db bucket key V W = (db, (default [] (rows !! key), false, None)).
Proof.
  intros Hfaults Hrows Hne. destruct db as [t n f]. simpl in *. subst f.
  unfold sqlite.CmpAndSwap, sql.Begin. simpl.
  by rewrite (cmpAndSwap_mismatch (sql.mkSqlTx t false) bucket key rows
                eq_refl Hrows V W Hne).
Qed.

(** X24: a swap is not repeated: after [CmpAndSwap bucket key V W] has
    swapped, with [W] different from [V], the same call made again finds
    [W], returns [(W, false, nil)] and changes nothing. *)
Theorem CmpAndSwap_twice (db : sql.DB) (bucket key V W : bytes) (rows : gmap bytes bytes) :
  sql.faults db = sql.no_faults →
  sql.tables db !! bucket = Some rows →
  rows !! key = Some V →
  V ≠ W →
  (sqlite.CmpAndSwap db bucket key V W).2 = (W, true, None) ∧
  sqlite.CmpAndSwap (sqlite.CmpAndSwap db bucket key V W).1 bucket key V W
  = ((sqlite.CmpAndSwap db bucket key V W).1, (W, false, None)).
Proof.
  intros Hfaults Hrows HV Hne.
  pose proof (CmpAndSwap_swaps db bucket key W rows Hfaults Hrows) as Hfirst.
  rewrite HV in Hfirst. simpl in Hfirst. rewrite Hfirst. simpl. split; [done|].
  pose proof (CmpAndSwap_keeps
                (sql.with_tables db (<[bucket := <[key := W]> rows]> (sql.tables db)))
                bucket key V W (<[key := W]> rows) Hfaults
                (lookup_insert_eq _ _ _)) as Hsecond.
  rewrite lookup_insert_eq in Hsecond. simpl in Hsecond.
  apply Hsecond. congruence.
Qed.

Lemma CmpAndSwap_twice_witness :
  (sqlite.CmpAndSwap db_users users alice (B "1") (B "2")).2 = (B "2", true, None) ∧
  sqlite.CmpAndSwap (sqlite.CmpAndSwap db_users users alice (B "1") (B "2")).1
    users alice (B "1") (B "2")
  = ((sqlite.CmpAndSwap db_users users alice (B "1") (B "2")).1, (B "2", false, None)).
Proof.
  apply (CmpAndSwap_twice db_users users alice (B "1") (B "2") {[ alice := B "1" ]}).
  - reflexivity.
  - exact db_users_table.
  - exact db_users_alice.
  - intros H. vm_compute in H. discriminate H.
Defined.


